(** * Near-Earth objects and their close approaches (models.py)

    A shallow embedding of [NearEarthObject] and [CloseApproach]:
    the two classes become records, object identity becomes a
    reference into a store, methods that can raise return a [result],
    and the Python built-ins the methods lean on ([float], [format],
    [repr], truthiness, [==]) are written out over the value type
    [PyVal] and IEEE binary64 numbers. *)

From Stdlib Require Import ZArith String Ascii List Bool Lia DecimalString DecimalN.
From Stdlib Require Import Floats.SpecFloat.
From stdpp Require Import base option gmap strings.

Local Open Scope string_scope.
Local Open Scope Z_scope.

(** ** Python values *)

(** The values that reach the two classes: constructor arguments and
    the mappings built by [serialize].  A [dict] literal keeps its
    items in the order they are written, so it is a list of pairs. *)
#[warnings="-register-all"]
Inductive PyVal : Type :=
| PyNone
| PyBool (b : bool)
| PyInt (n : Z)
| PyFloat (x : spec_float)
| PyStr (s : string)
| PyDict (items : list (string * PyVal)).

(** Exceptions: [ValueError] carries its message; [AttributeError]
    records the attribute that was looked up on [None]. *)
Inductive exn : Type :=
| ValueError (msg : string)
| TypeError
| OverflowError
| AttributeError (attr : string).

(** Outcome of a call.  [Stuck] is reached only through a reference
    that is not in the store, which no Python run produces. *)
Inductive result (A : Type) : Type :=
| Ok (a : A)
| Raise (e : exn)
| Stuck.
Arguments Ok {A} a.
Arguments Raise {A} e.
Arguments Stuck {A}.

#[global] Instance result_ret : MRet result := fun A a => Ok a.
#[global] Instance result_bind : MBind result := fun A B f m =>
  match m with
  | Ok a => f a
  | Raise e => Raise e
  | Stuck => Stuck
  end.

(** [v == s] and [v != s] for a [str] literal [s]. *)
Definition py_eq_str (v : PyVal) (s : string) : bool :=
  match v with
  | PyStr t => String.eqb t s
  | _ => false
  end.

Definition py_ne_str (v : PyVal) (s : string) : bool := negb (py_eq_str v s).

(** An optional string ([None] or a [str]) as a value. *)
Definition of_opt (o : option string) : PyVal :=
  match o with
  | Some s => PyStr s
  | None => PyNone
  end.

(** Truthiness of [None] or a [str]. *)
Definition truthy (o : option string) : bool :=
  match o with
  | Some s => negb (String.eqb s EmptyString)
  | None => false
  end.

(** [str(o)], as an f-string field [{o}] renders it. *)
Definition py_str (o : option string) : string :=
  match o with
  | Some s => s
  | None => "None"
  end.

(** [repr(b)] for a [bool]. *)
Definition bool_repr (b : bool) : string := if b then "True" else "False".

(** ** Floating point *)

(** Python's [float] is IEEE binary64. *)
Definition prec : Z := 53.
Definition emax : Z := 1024.

Definition nan : spec_float := S754_nan.

(** [math.isnan]. *)
Definition isnan (x : spec_float) : bool :=
  match x with
  | S754_nan => true
  | _ => false
  end.

(** [x == y] on floats. *)
Definition float_eqb (x y : spec_float) : bool := SFeqb x y.

(** [float(n)] for an [int]: nearest binary64, ties to even;
    [OverflowError] past the largest finite value. *)
Definition float_of_int (n : Z) : result spec_float :=
  match binary_normalize prec emax n 0 false with
  | S754_infinity _ => Raise OverflowError
  | x => Ok x
  end.

(** Whether a float is the integer [n], exactly. *)
Definition float_is_int (x : spec_float) (n : Z) : bool :=
  match x with
  | S754_zero _ => n =? 0
  | S754_finite s m e => (e <=? 0) && (cond_Zopp s (Z.pos m) =? n * 2 ^ (- e))
  | _ => false
  end.

(** *** Fixed-point formatting, [format(x, ".<p>f")] *)

Definition digit_char (d : Z) : ascii := ascii_of_N (48 + Z.to_N d).

(** The last [p] decimal digits of [n], most significant first. *)
Fixpoint fixed_digits (p : nat) (n : Z) : string :=
  match p with
  | O => EmptyString
  | S k => fixed_digits k (n / 10) +:+ String (digit_char (n mod 10)) EmptyString
  end.

(** Decimal numeral of a natural number, no leading zeros. *)
Definition dec (n : Z) : string := NilEmpty.string_of_uint (N.to_uint (Z.to_N n)).

(** [num / den] rounded to the nearest integer, ties to even. *)
Definition round_half_even (num den : Z) : Z :=
  let q := num / den in
  match 2 * (num mod den) ?= den with
  | Lt => q
  | Gt => q + 1
  | Eq => if Z.even q then q else q + 1
  end.

(** [m * 2^e * 10^p] rounded to an integer: the digits to print. *)
Definition scaled (p : nat) (m : positive) (e : Z) : Z :=
  if 0 <=? e then Z.pos m * 2 ^ e * 10 ^ Z.of_nat p
  else round_half_even (Z.pos m * 10 ^ Z.of_nat p) (2 ^ (- e)).

(** [n] printed with the point before its last [p] digits. *)
Definition fixed_point (p : nat) (n : Z) : string :=
  dec (n / 10 ^ Z.of_nat p) +:+
  match p with
  | O => EmptyString
  | S _ => "." +:+ fixed_digits p (n mod 10 ^ Z.of_nat p)
  end.

Definition sign_str (s : bool) : string := if s then "-" else EmptyString.

Definition format_f (p : nat) (x : spec_float) : string :=
  match x with
  | S754_nan => "nan"
  | S754_infinity s => sign_str s +:+ "inf"
  | S754_zero s => sign_str s +:+ fixed_point p 0
  | S754_finite s m e => sign_str s +:+ fixed_point p (scaled p m e)
  end.

(** ** Collaborators *)

(** A naive [datetime.datetime]; every such object is truthy. *)
Record datetime : Type := mk_datetime {
  year : Z; month : Z; day : Z; hour : Z; minute : Z; second : Z; microsecond : Z
}.

(** Modelled from the spec: the [helpers] module, which models.py
    imports and which is not among the sources.  Its two functions are
    an interface with the contract the specification gives them: the
    parser yields a date-time or nothing, the formatter a string. *)
Class Helpers : Type := {
  cd_to_datetime : string -> option datetime;
  datetime_to_str : datetime -> string
}.

(** The two built-ins whose behaviour rests on the Unicode tables:
    [repr] of a [str], and the reading of a [str] as a float
    ([None] where [float] raises [ValueError]). *)
Class Builtins : Type := {
  str_repr : string -> string;
  float_of_str : string -> option spec_float
}.

(** [float(v)]. *)
Definition py_float `{Builtins} (v : PyVal) : result spec_float :=
  match v with
  | PyFloat x => Ok x
  | PyInt n => float_of_int n
  | PyBool b => float_of_int (if b then 1 else 0)
  | PyStr s =>
      match float_of_str s with
      | Some x => Ok x
      | None => Raise (ValueError ("could not convert string to float: " +:+ str_repr s))
      end
  | PyNone | PyDict _ => Raise TypeError
  end.

(** [repr(o)] for [None] or a [str]. *)
Definition opt_repr `{Builtins} (o : option string) : string :=
  match o with
  | Some s => str_repr s
  | None => "None"
  end.

(** Object identity. *)
Definition ref : Type := positive.

(** ** class NearEarthObject *)

Module NearEarthObject.

(** The attributes of an instance.  [name] is [None] or a [str];
    [approaches] holds references to the linked approaches. *)
Record t : Type := mk {
  name : option string;
  designation : string;
  diameter : spec_float;
  hazardous : bool;
  approaches : list ref
}.

(** Default arguments of the constructor. *)
Definition default_designation : string := EmptyString.
Definition default_name : option string := None.
Definition default_diameter : PyVal := PyFloat nan.
Definition default_hazardous : PyVal := PyBool false.

Section Methods.
Context `{Builtins}.

Definition __init__ (designation_ : string) (name_ : option string)
    (diameter_ hazardous_ : PyVal) : result t :=
  let name' := if py_ne_str (of_opt name_) EmptyString then name_ else None in
  diameter' ← (if py_ne_str diameter_ EmptyString then py_float diameter_ else Ok nan);
  let hazardous' := if py_eq_str hazardous_ "Y" then true else false in
  Ok {| name := name'; designation := designation_; diameter := diameter';
        hazardous := hazardous'; approaches := [] |}.

Definition fullname (self : t) : string :=
  if truthy (name self)
  then designation self +:+ " (" +:+ py_str (name self) +:+ ")"
  else designation self.

Definition __str__ (self : t) : string :=
  if negb (isnan (diameter self))
  then "NEO " +:+ fullname self +:+ " has a diameter of " +:+
       format_f 3 (diameter self) +:+ " km and " +:+
       (if hazardous self then "is" else "is not") +:+ " " +:+
       "potentially hazardous."
  else "NEO " +:+ fullname self +:+ ", " +:+
       (if hazardous self then "is" else "is not") +:+ " potentially " +:+
       "hazardous.".

Definition __repr__ (self : t) : string :=
  "NearEarthObject(designation=" +:+ str_repr (designation self) +:+ ",  " +:+
  "name=" +:+ opt_repr (name self) +:+ ", diameter=" +:+
  format_f 3 (diameter self) +:+ ", " +:+
  "hazardous=" +:+ bool_repr (hazardous self) +:+ ")".
End Methods.

End NearEarthObject.

(** ** class CloseApproach *)

Module CloseApproach.

(** The attributes of an instance.  [_designation] is the key the
    constructor was given, [time] is [None] or a date-time, and [neo] is
    [None] or a reference to an object of the store. *)
Record t : Type := mk {
  _designation : option string;
  time : option datetime;
  distance : spec_float;
  velocity : spec_float;
  neo : option ref
}.

(** Default arguments of the constructor. *)
Definition default_distance : PyVal := PyFloat (S754_zero false).
Definition default_velocity : PyVal := PyFloat (S754_zero false).
Definition default_time : string := "0001-Jan-01 00:00".
Definition default_neo : option string := None.

(** The assignment [self.neo = r]. *)
Definition set_neo (self : t) (r : option ref) : t :=
  {| _designation := _designation self; time := time self;
     distance := distance self; velocity := velocity self; neo := r |}.

Section Methods.
Context `{Helpers} `{Builtins}.

Definition __init__ (distance_ velocity_ : PyVal) (time_ : string)
    (neo_ : option string) : result t :=
  let time' := cd_to_datetime time_ in
  distance' ← py_float distance_;
  velocity' ← py_float velocity_;
  Ok {| _designation := neo_; time := time'; distance := distance';
        velocity := velocity'; neo := None |}.

Definition time_str (self : t) : string :=
  match time self with
  | Some d => datetime_to_str d
  | None => "an unknown date and time"
  end.

Definition designation (self : t) : option string := _designation self.

(** [self.neo.<attr>], read through the store. *)
Definition neo_attr {A : Type} (neos : gmap ref NearEarthObject.t) (self : t)
    (attr : string) (get : NearEarthObject.t -> A) : result A :=
  match neo self with
  | None => Raise (AttributeError attr)
  | Some r =>
      match neos !! r with
      | Some o => Ok (get o)
      | None => Stuck
      end
  end.

Definition __str__ (neos : gmap ref NearEarthObject.t) (self : t) : result string :=
  fullname ← neo_attr neos self "fullname" NearEarthObject.fullname;
  Ok ("At " +:+ time_str self +:+ ", '" +:+ fullname +:+ "' approached " +:+
      "Earth at a distance of " +:+ format_f 2 (distance self) +:+ " au and a " +:+
      "velocity of " +:+ format_f 2 (velocity self) +:+ " km/s.").

(** [repr(self.neo)]. *)
Definition neo_repr (neos : gmap ref NearEarthObject.t) (self : t) : result string :=
  match neo self with
  | None => Ok "None"
  | Some r =>
      match neos !! r with
      | Some o => Ok (NearEarthObject.__repr__ o)
      | None => Stuck
      end
  end.

Definition __repr__ (neos : gmap ref NearEarthObject.t) (self : t) : result string :=
  neo' ← neo_repr neos self;
  Ok ("CloseApproach(time=" +:+ str_repr (time_str self) +:+ ", " +:+
      "distance=" +:+ format_f 2 (distance self) +:+ ", " +:+
      "velocity=" +:+ format_f 2 (velocity self) +:+ ", " +:+
      "neo=" +:+ neo' +:+ ")").

Definition serialize (neos : gmap ref NearEarthObject.t) (self : t)
    (extension : PyVal) : result PyVal :=
  if negb (py_eq_str extension "csv" || py_eq_str extension "json")
  then Raise (ValueError "Invalid file extension")
  else if py_eq_str extension "csv" then
    designation' ← neo_attr neos self "designation" NearEarthObject.designation;
    name' ← neo_attr neos self "name" NearEarthObject.name;
    diameter' ← neo_attr neos self "diameter" NearEarthObject.diameter;
    hazardous' ← neo_attr neos self "hazardous" NearEarthObject.hazardous;
    Ok (PyDict [("datetime_utc", PyStr (time_str self));
                ("distance_au", PyFloat (distance self));
                ("velocity_km_s", PyFloat (velocity self));
                ("designation", PyStr designation');
                ("name", of_opt name');
                ("diameter_km", PyFloat diameter');
                ("potentially_hazardous", PyBool hazardous')])
  else
    designation' ← neo_attr neos self "designation" NearEarthObject.designation;
    name' ← neo_attr neos self "name" NearEarthObject.name;
    diameter' ← neo_attr neos self "diameter" NearEarthObject.diameter;
    hazardous' ← neo_attr neos self "hazardous" NearEarthObject.hazardous;
    Ok (PyDict [("datetime_utc", PyStr (time_str self));
                ("distance_au", PyFloat (distance self));
                ("velocity_km_s", PyFloat (velocity self));
                ("neo", PyDict [("designation", PyStr designation');
                                ("name", of_opt name');
                                ("diameter_km", PyFloat diameter');
                                ("potentially_hazardous", PyBool hazardous')])]).
End Methods.

End CloseApproach.

(** ** The store and the linking pass *)

(** Both kinds of object live in a store and are named by reference, so
    that an approach and the object it points to can refer to each
    other. *)
Record store : Type := mk_store {
  neos : gmap ref NearEarthObject.t;
  events : gmap ref CloseApproach.t
}.

Definition empty_store : store := {| neos := ∅; events := ∅ |}.

(** [NearEarthObject(...)]: run the constructor, give the object an identity. *)
Definition new_neo `{Builtins} (σ : store) (designation : string) (name : option string)
    (diameter hazardous : PyVal) : result (ref * store) :=
  o ← NearEarthObject.__init__ designation name diameter hazardous;
  let r := fresh (dom (neos σ)) in
  Ok (r, {| neos := <[r := o]> (neos σ); events := events σ |}).

(** [CloseApproach(...)]. *)
Definition new_approach `{Helpers} `{Builtins} (σ : store) (distance velocity : PyVal)
    (time : string) (neo : option string) : result (ref * store) :=
  c ← CloseApproach.__init__ distance velocity time neo;
  let r := fresh (dom (events σ)) in
  Ok (r, {| neos := neos σ; events := <[r := c]> (events σ) |}).

(** [o.approaches.append(e)]. *)
Definition append_approach (o : NearEarthObject.t) (e : ref) : NearEarthObject.t :=
  {| NearEarthObject.name := NearEarthObject.name o;
     NearEarthObject.designation := NearEarthObject.designation o;
     NearEarthObject.diameter := NearEarthObject.diameter o;
     NearEarthObject.hazardous := NearEarthObject.hazardous o;
     NearEarthObject.approaches := NearEarthObject.approaches o ++ [e] |}.

(** Modelled from the spec: the linking pass belongs to the database
    constructor, which is not among the sources.  For one approach [e]
    and the object [n] its key resolves to, it sets [e.neo] to [n] and
    appends [e] to [n.approaches]. *)
Definition link (σ : store) (e n : ref) : option store :=
  match events σ !! e, neos σ !! n with
  | Some c, Some o =>
      Some {| neos := <[n := append_approach o e]> (neos σ);
              events := <[e := CloseApproach.set_neo c (Some n)]> (events σ) |}
  | _, _ => None
  end.

(** ** The serialized mappings *)

(** The items of a mapping, with a nested [neo] mapping spliced in
    place: the flat reading of a nested record. *)
Definition flatten (v : PyVal) : PyVal :=
  match v with
  | PyDict items =>
      PyDict (flat_map (fun kv =>
                match kv with
                | (_, PyDict inner) => inner
                | _ => [kv]
                end) items)
  | _ => v
  end.

(** The keys of a mapping, in order. *)
Definition keys (v : PyVal) : list string :=
  match v with
  | PyDict items => map fst items
  | _ => []
  end.

(** ** The built-ins on ASCII text *)

Definition dquote : ascii := ascii_of_N 34.
Definition squote : ascii := "'"%char.
Definition backslash : ascii := "\"%char.

Definition hex_digit (n : N) : ascii :=
  if (n <? 10)%N then ascii_of_N (48 + n) else ascii_of_N (87 + n).

(** One character of [repr(s)] under the chosen quote. *)
Definition repr_char (quote c : ascii) : string :=
  let n := N_of_ascii c in
  if Ascii.eqb c quote || Ascii.eqb c backslash then String backslash (String c EmptyString)
  else if (n =? 9)%N then "\t"
  else if (n =? 10)%N then "\n"
  else if (n =? 13)%N then "\r"
  else if (n <? 32)%N || (n =? 127)%N
       then "\x" +:+ String (hex_digit (n / 16)) (String (hex_digit (n mod 16)) EmptyString)
  else String c EmptyString.

Fixpoint repr_body (quote : ascii) (s : string) : string :=
  match s with
  | EmptyString => EmptyString
  | String c s' => repr_char quote c +:+ repr_body quote s'
  end.

Fixpoint has_char (c : ascii) (s : string) : bool :=
  match s with
  | EmptyString => false
  | String d s' => Ascii.eqb c d || has_char c s'
  end.

(** [repr(s)]: single quotes, unless [s] holds a single quote and no
    double quote; bytes from 128 up stand for printable characters and
    pass through. *)
Definition ascii_str_repr (s : string) : string :=
  let quote := if has_char squote s && negb (has_char dquote s) then dquote else squote in
  String quote (repr_body quote s) +:+ String quote EmptyString.

Definition is_space (c : ascii) : bool :=
  let n := N_of_ascii c in ((9 <=? n) && (n <=? 13))%N || (n =? 32)%N.

Definition digit_val (c : ascii) : option Z :=
  let n := N_of_ascii c in
  if ((48 <=? n) && (n <=? 57))%N then Some (Z.of_N n - 48) else None.

Definition lower (c : ascii) : ascii :=
  let n := N_of_ascii c in
  if ((65 <=? n) && (n <=? 90))%N then ascii_of_N (n + 32) else c.

Fixpoint strip_left (l : list ascii) : list ascii :=
  match l with
  | c :: l' => if is_space c then strip_left l' else l
  | [] => []
  end.

Definition strip (l : list ascii) : list ascii :=
  rev (strip_left (rev (strip_left l))).

(** The rest of a digit part after its first digit: digits, each
    optionally preceded by one underscore.  [acc] is the value read so
    far and the number of digits. *)
Fixpoint digits_tl (l : list ascii) (acc : Z * Z) : (Z * Z) * list ascii :=
  match l with
  | c :: l' =>
      match digit_val c with
      | Some d => digits_tl l' (10 * fst acc + d, snd acc + 1)
      | None =>
          if Ascii.eqb c "_" then
            match l' with
            | c' :: l'' =>
                match digit_val c' with
                | Some d => digits_tl l'' (10 * fst acc + d, snd acc + 1)
                | None => (acc, l)
                end
            | [] => (acc, l)
            end
          else (acc, l)
      end
  | [] => (acc, [])
  end.

(** A digit part: its value, its length, and what follows it. *)
Definition digitpart (l : list ascii) : option ((Z * Z) * list ascii) :=
  match l with
  | c :: l' =>
      match digit_val c with
      | Some d => Some (digits_tl l' (d, 1))
      | None => None
      end
  | [] => None
  end.

Definition take_sign (l : list ascii) : bool * list ascii :=
  match l with
  | c :: l' =>
      if Ascii.eqb c "-" then (true, l')
      else if Ascii.eqb c "+" then (false, l')
      else (false, l)
  | [] => (false, [])
  end.

(** [number]: digits with an optional point, or a point and digits.
    Yields the digits as one integer, and how many follow the point. *)
Definition number (l : list ascii) : option ((Z * Z) * list ascii) :=
  match digitpart l with
  | Some ((i, _), l1) =>
      match l1 with
      | c :: l2 =>
          if Ascii.eqb c "." then
            match digitpart l2 with
            | Some ((f, k), l3) => Some ((i * 10 ^ k + f, k), l3)
            | None => Some ((i, 0), l2)
            end
          else Some ((i, 0), l1)
      | [] => Some ((i, 0), [])
      end
  | None =>
      match l with
      | c :: l2 =>
          if Ascii.eqb c "." then
            match digitpart l2 with
            | Some ((f, k), l3) => Some ((f, k), l3)
            | None => None
            end
          else None
      | [] => None
      end
  end.

(** [exponent], when one is written; the text must end after it. *)
Definition exponent (l : list ascii) : option Z :=
  match l with
  | [] => Some 0
  | c :: l1 =>
      if Ascii.eqb (lower c) "e" then
        let '(s, l2) := take_sign l1 in
        match digitpart l2 with
        | Some ((x, _), []) => Some (if s then - x else x)
        | _ => None
        end
      else None
  end.

(** [n * 10^k] rounded to binary64, ties to even. *)
Definition decimal_to_float (s : bool) (n k : Z) : spec_float :=
  if n =? 0 then S754_zero s
  else if 0 <=? k then binary_round prec emax s (Z.to_pos (n * 10 ^ k)) 0
  else
    let '(q, e, l) := SFdiv_core_binary prec emax n 0 (10 ^ (- k)) 0 in
    binary_round_aux prec emax s q e l.

Definition ascii_float_of_str (str : string) : option spec_float :=
  let '(s, l) := take_sign (strip (list_ascii_of_string str)) in
  let word := string_of_list_ascii (map lower l) in
  if String.eqb word "inf" || String.eqb word "infinity" then Some (S754_infinity s)
  else if String.eqb word "nan" then Some S754_nan
  else
    match number l with
    | Some ((n, k), l') =>
        match exponent l' with
        | Some x => Some (decimal_to_float s n (x - k))
        | None => None
        end
    | None => None
    end.

#[global] Instance ascii_builtins : Builtins := {|
  str_repr := ascii_str_repr;
  float_of_str := ascii_float_of_str
|}.

(** ** The date and time helpers *)

Definition month_names : list string :=
  ["Jan"; "Feb"; "Mar"; "Apr"; "May"; "Jun"; "Jul"; "Aug"; "Sep"; "Oct"; "Nov"; "Dec"].

Fixpoint index_of (x : string) (l : list string) (i : Z) : option Z :=
  match l with
  | [] => None
  | y :: l' => if String.eqb x y then Some i else index_of x l' (i + 1)
  end.

(** A run of decimal digits as a number. *)
Fixpoint digits_val (l : list ascii) (acc : Z) : option Z :=
  match l with
  | [] => Some acc
  | c :: l' =>
      match digit_val c with
      | Some d => digits_val l' (10 * acc + d)
      | None => None
      end
  end.

(** Modelled from the spec: the parser of the [helpers] module, which is
    not among the sources.  It reads the fixed pattern
    [YYYY-Mon-DD HH:MM] and yields nothing for any other text. *)
Definition parse_datetime (s : string) : option datetime :=
  match list_ascii_of_string s with
  | [y1; y2; y3; y4; a; m1; m2; m3; b; d1; d2; c; h1; h2; d; n1; n2] =>
      if Ascii.eqb a "-" && Ascii.eqb b "-" && Ascii.eqb c " " && Ascii.eqb d ":" then
        y ← digits_val [y1; y2; y3; y4] 0;
        m ← index_of (string_of_list_ascii [m1; m2; m3]) month_names 1;
        dd ← digits_val [d1; d2] 0;
        hh ← digits_val [h1; h2] 0;
        mm ← digits_val [n1; n2] 0;
        if (1 <=? y) && (1 <=? dd) && (dd <=? 31) && (hh <? 24) && (mm <? 60)
        then Some {| year := y; month := m; day := dd; hour := hh; minute := mm;
                     second := 0; microsecond := 0 |}
        else None
      else None
  | _ => None
  end.

(** Modelled from the spec: the formatter of the [helpers] module, which
    is not among the sources.  It writes [YYYY-Mon-DD HH:MM], without
    seconds. *)
Definition format_datetime (d : datetime) : string :=
  fixed_digits 4 (year d) +:+ "-" +:+
  nth (Z.to_nat (month d - 1)) month_names "???" +:+ "-" +:+
  fixed_digits 2 (day d) +:+ " " +:+
  fixed_digits 2 (hour d) +:+ ":" +:+ fixed_digits 2 (minute d).

#[global] Instance spec_helpers : Helpers := {|
  cd_to_datetime := parse_datetime;
  datetime_to_str := format_datetime
|}.

(** ** A worked scenario *)

(** Eros and its approach of 27 December 1900, built from the text of
    their data rows and then linked. *)
Definition eros_scenario : option (ref * ref * store) :=
  match new_neo empty_store "433" (Some "Eros") (PyStr "16.84") (PyStr "N") with
  | Ok (n, σ1) =>
      match new_approach σ1 (PyStr "0.148") (PyStr "5.1") "1900-Dec-27 01:30" (Some "433") with
      | Ok (e, σ2) =>
          match link σ2 e n with
          | Some σ3 => Some (e, n, σ3)
          | None => None
          end
      | _ => None
      end
  | _ => None
  end.

(** The same two objects, written out. *)
Definition eros : NearEarthObject.t :=
  {| NearEarthObject.name := Some "Eros";
     NearEarthObject.designation := "433";
     NearEarthObject.diameter := S754_finite false 4740038607807447 (-48);
     NearEarthObject.hazardous := false;
     NearEarthObject.approaches := [1%positive] |}.

Definition eros_approach : CloseApproach.t :=
  {| CloseApproach._designation := Some "433";
     CloseApproach.time := Some {| year := 1900; month := 12; day := 27; hour := 1;
                                   minute := 30; second := 0; microsecond := 0 |};
     CloseApproach.distance := S754_finite false 5332261958806667 (-55);
     CloseApproach.velocity := S754_finite false 5742089524897382 (-50);
     CloseApproach.neo := Some 1%positive |}.

Definition eros_store : store :=
  {| neos := {[ 1%positive := eros ]}; events := {[ 1%positive := eros_approach ]} |}.

(** The two objects as their constructors leave them, before linking. *)
Definition eros_unlinked : NearEarthObject.t :=
  {| NearEarthObject.name := Some "Eros";
     NearEarthObject.designation := "433";
     NearEarthObject.diameter := S754_finite false 4740038607807447 (-48);
     NearEarthObject.hazardous := false;
     NearEarthObject.approaches := [] |}.

Definition eros_approach_unlinked : CloseApproach.t :=
  CloseApproach.set_neo eros_approach None.

(** An approach whose time text the parser does not read. *)
Definition undated_approach : CloseApproach.t :=
  {| CloseApproach._designation := Some "433";
     CloseApproach.time := None;
     CloseApproach.distance := S754_finite false 5332261958806667 (-55);
     CloseApproach.velocity := S754_finite false 5742089524897382 (-50);
     CloseApproach.neo := None |}.



(** The assignment [o.approaches = es]. *)
Definition set_approaches (o : NearEarthObject.t) (es : list ref) : NearEarthObject.t :=
  {| NearEarthObject.name := NearEarthObject.name o;
     NearEarthObject.designation := NearEarthObject.designation o;
     NearEarthObject.diameter := NearEarthObject.diameter o;
     NearEarthObject.hazardous := NearEarthObject.hazardous o;
     NearEarthObject.approaches := es |}.

(** * Properties *)

(** ** Built-ins *)

Lemma py_eq_str_spec (v : PyVal) (s : string) :
  py_eq_str v s = true ↔ v = PyStr s.
Proof.
  destruct v; simpl; try (split; [discriminate | congruence]).
  rewrite String.eqb_eq. split; congruence.
Qed.

Lemma py_eq_str_false (v : PyVal) (s : string) :
  v ≠ PyStr s → py_eq_str v s = false.
Proof.
  intros Hne. destruct (py_eq_str v s) eqn:E; [| reflexivity].
  apply py_eq_str_spec in E. contradiction.
Qed.

Lemma truthy_spec (o : option string) :
  truthy o = true ↔ ∃ s, o = Some s ∧ s ≠ EmptyString.
Proof.
  destruct o as [s |]; simpl.
  - rewrite negb_true_iff, String.eqb_neq. split.
    + intros Hs. exists s. auto.
    + intros (t & [= ->] & Ht). exact Ht.
  - split; [discriminate | intros (t & Ht & _); discriminate].
Qed.

(** The integer chosen by [round_half_even] is a nearest one: it is off
    by at most half a unit. *)
Lemma round_half_even_nearest (num den : Z) :
  0 < den →
  Z.abs (2 * (num - round_half_even num den * den)) ≤ den.
Proof.
  intros Hden. unfold round_half_even.
  pose proof (Z.div_mod num den ltac:(lia)) as Hdm.
  pose proof (Z.mod_pos_bound num den Hden) as Hb.
  set (q := num / den) in *. set (r := num mod den) in *.
  clearbody q r.
  destruct (Z.compare_spec (2 * r) den) as [Hc | Hc | Hc].
  - destruct (Z.even q); lia.
  - lia.
  - lia.
Qed.

(** On a tie the even neighbour is taken. *)
Lemma round_half_even_tie (num den : Z) :
  0 < den → 2 * (num mod den) = den →
  Z.even (round_half_even num den) = true.
Proof.
  intros Hden Htie. unfold round_half_even.
  rewrite Htie, Z.compare_refl.
  destruct (Z.even (num / den)) eqn:E; [exact E |].
  rewrite Z.even_add, E. reflexivity.
Qed.

Lemma scaled_nonneg (p : nat) (m : positive) (e : Z) : 0 ≤ scaled p m e.
Proof.
  unfold scaled. destruct (0 <=? e) eqn:E.
  - apply Z.leb_le in E.
    pose proof (Z.pow_nonneg 2 e ltac:(lia)).
    pose proof (Z.pow_nonneg 10 (Z.of_nat p) ltac:(lia)).
    apply Z.mul_nonneg_nonneg; [apply Z.mul_nonneg_nonneg |]; lia.
  - apply Z.leb_gt in E.
    assert (Hden : 0 < 2 ^ (- e)) by (apply Z.pow_pos_nonneg; lia).
    assert (Hnum : 0 ≤ Z.pos m * 10 ^ Z.of_nat p).
    { apply Z.mul_nonneg_nonneg; [lia | apply Z.pow_nonneg; lia]. }
    pose proof (Z.div_pos _ _ Hnum Hden) as Hq.
    unfold round_half_even.
    destruct (_ ?= _); [destruct (Z.even _) | |]; lia.
Qed.

(** For a finite number with a binary fraction, the printed digits are
    those of an integer nearest to [m * 2^e * 10^p]. *)
Lemma scaled_nearest (p : nat) (m : positive) (e : Z) :
  e < 0 →
  Z.abs (2 * (Z.pos m * 10 ^ Z.of_nat p - scaled p m e * 2 ^ (- e))) ≤ 2 ^ (- e).
Proof.
  intros He. unfold scaled.
  destruct (0 <=? e) eqn:E; [apply Z.leb_le in E; lia |].
  apply round_half_even_nearest. apply Z.pow_pos_nonneg; lia.
Qed.

Lemma scaled_exact (p : nat) (m : positive) (e : Z) :
  0 ≤ e → scaled p m e = Z.pos m * 2 ^ e * 10 ^ Z.of_nat p.
Proof.
  intros He. unfold scaled.
  destruct (0 <=? e) eqn:E; [reflexivity | apply Z.leb_gt in E; lia].
Qed.

Lemma length_append (s t : string) :
  String.length (s +:+ t) = (String.length s + String.length t)%nat.
Proof. induction s as [| c s IH]; simpl; [reflexivity | rewrite IH; reflexivity]. Qed.

Lemma fixed_digits_length (p : nat) (n : Z) : String.length (fixed_digits p n) = p.
Proof.
  revert n. induction p as [| p IH]; intros n; simpl; [reflexivity |].
  rewrite length_append, IH. simpl. lia.
Qed.

Lemma digit_val_digit_char (d : Z) : 0 ≤ d < 10 → digit_val (digit_char d) = Some d.
Proof.
  intros Hd.
  assert (Hcases : d = 0 ∨ d = 1 ∨ d = 2 ∨ d = 3 ∨ d = 4 ∨ d = 5 ∨ d = 6 ∨ d = 7 ∨
                   d = 8 ∨ d = 9) by lia.
  repeat (destruct Hcases as [-> | Hcases]; [reflexivity |]).
  subst d. reflexivity.
Qed.

Lemma chars_append (s t : string) :
  list_ascii_of_string (s +:+ t) = (list_ascii_of_string s ++ list_ascii_of_string t)%list.
Proof. induction s as [| c s IH]; simpl; [reflexivity | rewrite IH; reflexivity]. Qed.

Lemma digits_val_app (l1 l2 : list ascii) (acc : Z) :
  digits_val (l1 ++ l2)%list acc =
  match digits_val l1 acc with
  | Some v => digits_val l2 v
  | None => None
  end.
Proof.
  revert acc. induction l1 as [| c l1 IH]; intros acc; simpl; [reflexivity |].
  destruct (digit_val c); [apply IH | reflexivity].
Qed.

(** Reading the printed digits back gives the number they were printed
    from. *)
Lemma fixed_digits_value (p : nat) (n acc : Z) :
  digits_val (list_ascii_of_string (fixed_digits p n)) acc =
  Some (acc * 10 ^ Z.of_nat p + n mod 10 ^ Z.of_nat p).
Proof.
  revert n acc. induction p as [| p IH]; intros n acc.
  - simpl. rewrite Z.mod_1_r. f_equal. lia.
  - cbn [fixed_digits]. rewrite chars_append, digits_val_app, IH. cbn [list_ascii_of_string digits_val].
    rewrite digit_val_digit_char by (apply Z.mod_pos_bound; lia).
    f_equal. rewrite Nat2Z.inj_succ, Z.pow_succ_r by lia.
    rewrite (Z.rem_mul_r n 10 (10 ^ Z.of_nat p)) by (try apply Z.pow_pos_nonneg; lia).
    lia.
Qed.

Lemma dec_value (n : Z) :
  N.of_uint <$> NilEmpty.uint_of_string (dec n) = Some (Z.to_N n).
Proof.
  unfold dec. rewrite NilEmpty.usu. simpl. f_equal. apply DecimalN.Unsigned.of_to.
Qed.

(** A finite number is printed as its sign, the integer part of the
    scaled digits, a point, and the last [p] of them. *)
Lemma format_f_finite (p : nat) (s : bool) (m : positive) (e : Z) :
  format_f (S p) (S754_finite s m e) =
  sign_str s +:+ dec (scaled (S p) m e / 10 ^ Z.of_nat (S p)) +:+ "." +:+
  fixed_digits (S p) (scaled (S p) m e mod 10 ^ Z.of_nat (S p)).
Proof. reflexivity. Qed.

(** *** Integers as floats *)

Lemma digits2_pos_bounds (m : positive) :
  2 ^ (Z.pos (digits2_pos m) - 1) ≤ Z.pos m < 2 ^ Z.pos (digits2_pos m).
Proof.
  induction m as [m IH | m IH |]; cbn [digits2_pos].
  - rewrite Pos2Z.inj_succ.
    replace (Z.succ (Z.pos (digits2_pos m)) - 1) with (Z.succ (Z.pos (digits2_pos m) - 1)) by lia.
    rewrite !Z.pow_succ_r by lia. lia.
  - rewrite Pos2Z.inj_succ.
    replace (Z.succ (Z.pos (digits2_pos m)) - 1) with (Z.succ (Z.pos (digits2_pos m) - 1)) by lia.
    rewrite !Z.pow_succ_r by lia. lia.
  - simpl. lia.
Qed.

Lemma iter_xO_value (m k : positive) :
  Z.pos (Pos.iter xO m k) = Z.pos m * 2 ^ Z.pos k.
Proof.
  induction k as [| k IH] using Pos.peano_ind.
  - simpl. lia.
  - rewrite Pos.iter_succ, Pos2Z.inj_succ, Z.pow_succ_r by lia.
    rewrite Pos2Z.inj_xO, IH. lia.
Qed.

Lemma iter_xO_digits (m k : positive) :
  digits2_pos (Pos.iter xO m k) = (digits2_pos m + k)%positive.
Proof.
  induction k as [| k IH] using Pos.peano_ind.
  - simpl. lia.
  - rewrite Pos.iter_succ. cbn [digits2_pos]. rewrite IH. lia.
Qed.

(** A full-width mantissa within the exponent range is not rounded. *)
Lemma binary_round_aux_canonical (s : bool) (m : positive) (e : Z) :
  Z.pos (digits2_pos m) = prec → -1074 ≤ e ≤ 971 →
  binary_round_aux prec emax s (Z.pos m) e loc_Exact = S754_finite s m e.
Proof.
  intros Hd He.
  assert (Hsh : ∀ l, shr_fexp prec emax (Z.pos m) e l = (shr_record_of_loc (Z.pos m) l, e)).
  { intros l. unfold shr_fexp, fexp, emin, Zdigits2. rewrite Hd. unfold prec, emax.
    replace (Z.max (53 + e - 53) (3 - 1024 - 53) - e) with 0 by lia. reflexivity. }
  unfold binary_round_aux. rewrite Hsh. simpl. rewrite Hsh. simpl.
  unfold prec, emax. destruct (e <=? 1024 - 53) eqn:E; [reflexivity |].
  apply Z.leb_gt in E. lia.
Qed.

Lemma binary_round_small (s : bool) (m : positive) :
  Z.pos m < 2 ^ prec →
  ∃ m' e, binary_round prec emax s m 0 = S754_finite s m' e ∧
          e ≤ 0 ∧ Z.pos m' = Z.pos m * 2 ^ (- e).
Proof.
  intros Hm. pose proof (digits2_pos_bounds m) as [Hlo Hhi].
  assert (Hd : Z.pos (digits2_pos m) ≤ 53).
  { destruct (Z.le_gt_cases (Z.pos (digits2_pos m)) 53) as [Hle | Hgt]; [exact Hle |].
    exfalso. unfold prec in Hm.
    assert (2 ^ 53 ≤ 2 ^ (Z.pos (digits2_pos m) - 1)) by (apply Z.pow_le_mono_r; lia).
    lia. }
  unfold binary_round, shl_align, fexp, emin.
  replace (Z.max (Z.pos (digits2_pos m) + 0 - prec) (3 - emax - prec) - 0)
    with (Z.pos (digits2_pos m) - 53) by (unfold prec, emax; lia).
  replace (Z.max (Z.pos (digits2_pos m) + 0 - prec) (3 - emax - prec))
    with (Z.pos (digits2_pos m) - 53) by (unfold prec, emax; lia).
  destruct (Z.pos (digits2_pos m) - 53) as [| k | k] eqn:Hk; try lia.
  - exists m, 0. split; [apply binary_round_aux_canonical; unfold prec; lia |].
    split; [lia | simpl; lia].
  - exists (Pos.iter xO m k), (Z.neg k).
    split; [apply binary_round_aux_canonical; [rewrite iter_xO_digits; unfold prec; lia | lia] |].
    split; [lia |]. rewrite iter_xO_value. reflexivity.
Qed.

(** [float(n)] is [n] itself for an integer of fewer than 54 bits. *)
Lemma float_of_int_exact (n : Z) :
  - 2 ^ prec < n < 2 ^ prec →
  ∃ x, float_of_int n = Ok x ∧ float_is_int x n = true.
Proof.
  intros Hn. unfold float_of_int, binary_normalize.
  destruct n as [| m | m].
  - eexists. split; reflexivity.
  - destruct (binary_round_small false m) as (m' & e & -> & He & Hv); [lia |].
    eexists. split; [reflexivity |]. cbn [float_is_int cond_Zopp].
    apply andb_true_intro. split; [apply Z.leb_le; exact He | apply Z.eqb_eq; exact Hv].
  - destruct (binary_round_small true m) as (m' & e & -> & He & Hv); [lia |].
    eexists. split; [reflexivity |]. cbn [float_is_int cond_Zopp].
    apply andb_true_intro. split; [apply Z.leb_le; exact He |].
    apply Z.eqb_eq. rewrite Hv. lia.
Qed.

(** ** NearEarthObject *)

Section NearEarthObjectFacts.
Context `{Builtins}.

(** What a successful construction stores. *)
Lemma neo_init_inv designation name diameter hazardous o :
  NearEarthObject.__init__ designation name diameter hazardous = Ok o →
  ∃ d,
    (if py_ne_str diameter EmptyString then py_float diameter else Ok nan) = Ok d ∧
    o = {| NearEarthObject.name :=
             if py_ne_str (of_opt name) EmptyString then name else None;
           NearEarthObject.designation := designation;
           NearEarthObject.diameter := d;
           NearEarthObject.hazardous := if py_eq_str hazardous "Y" then true else false;
           NearEarthObject.approaches := [] |}.
Proof.
  unfold NearEarthObject.__init__.
  destruct (if py_ne_str diameter EmptyString then py_float diameter else Ok nan)
    as [d | e |]; simpl; intros Hinit; try discriminate.
  exists d. split; [reflexivity | congruence].
Qed.

(** A diameter that is already a float, or the empty string, never
    makes the constructor raise. *)
Lemma neo_init_float designation name x hazardous :
  NearEarthObject.__init__ designation name (PyFloat x) hazardous =
  Ok {| NearEarthObject.name :=
          if py_ne_str (of_opt name) EmptyString then name else None;
        NearEarthObject.designation := designation;
        NearEarthObject.diameter := x;
        NearEarthObject.hazardous := if py_eq_str hazardous "Y" then true else false;
        NearEarthObject.approaches := [] |}.
Proof. reflexivity. Qed.

Lemma neo_init_empty_diameter designation name hazardous :
  NearEarthObject.__init__ designation name (PyStr EmptyString) hazardous =
  Ok {| NearEarthObject.name :=
          if py_ne_str (of_opt name) EmptyString then name else None;
        NearEarthObject.designation := designation;
        NearEarthObject.diameter := nan;
        NearEarthObject.hazardous := if py_eq_str hazardous "Y" then true else false;
        NearEarthObject.approaches := [] |}.
Proof. reflexivity. Qed.

(** The stored name is the argument, with the empty string turned
    into [None]. *)
Lemma stored_name (name : option string) :
  (if py_ne_str (of_opt name) EmptyString then name else None) =
  match name with
  | Some s => if String.eqb s EmptyString then None else Some s
  | None => None
  end.
Proof.
  destruct name as [s |]; [| reflexivity].
  unfold py_ne_str. simpl. destruct (String.eqb s EmptyString); reflexivity.
Qed.

(** C3. The hazardous attribute of a constructed object is true
    exactly when the raw indicator is the string "Y"; "y", "N", the
    empty string and the default [False] all give false. *)
Theorem hazardous_iff_Y designation name diameter hazardous o :
  NearEarthObject.__init__ designation name diameter hazardous = Ok o →
  (NearEarthObject.hazardous o = true ↔ hazardous = PyStr "Y") ∧
  (hazardous ∈ [PyStr "y"; PyStr "N"; PyStr EmptyString;
                NearEarthObject.default_hazardous] →
   NearEarthObject.hazardous o = false).
Proof.
  intros Hinit. apply neo_init_inv in Hinit as (d & _ & ->). simpl.
  split.
  - rewrite <- py_eq_str_spec. destruct (py_eq_str hazardous "Y"); tauto.
  - intros Hin. repeat (apply elem_of_cons in Hin as [-> | Hin]; [reflexivity |]).
    apply elem_of_nil in Hin. contradiction.
Qed.

(** C4. The full name of a constructed object is
    "designation (name)" for a non-empty name, and the designation
    alone when the name was absent or the empty string. *)
Theorem fullname_of_constructed designation name diameter hazardous o :
  NearEarthObject.__init__ designation name diameter hazardous = Ok o →
  NearEarthObject.fullname o =
  match name with
  | Some s => if String.eqb s EmptyString then designation
              else designation +:+ " (" +:+ s +:+ ")"
  | None => designation
  end.
Proof.
  intros Hinit. apply neo_init_inv in Hinit as (d & _ & ->).
  unfold NearEarthObject.fullname. simpl. rewrite stored_name.
  destruct name as [s |]; [| reflexivity].
  destruct (String.eqb s EmptyString) eqn:E; simpl; [reflexivity |].
  rewrite E. reflexivity.
Qed.

(** C5. The description of an object names its diameter to three
    decimals when the diameter is a number and leaves the clause out
    when it is NaN, with "is" or "is not" chosen by the hazardous
    flag.  For a finite diameter the three decimals are the last three
    digits of the integer nearest to a thousand times the diameter.
    The object built from designation "2015 AB" and an empty diameter
    reads "NEO 2015 AB, is not potentially hazardous.". *)
Theorem description_of_neo :
  (∀ o : NearEarthObject.t,
     NearEarthObject.__str__ o =
     if isnan (NearEarthObject.diameter o)
     then "NEO " +:+ NearEarthObject.fullname o +:+ ", " +:+
          (if NearEarthObject.hazardous o then "is" else "is not") +:+
          " potentially hazardous."
     else "NEO " +:+ NearEarthObject.fullname o +:+ " has a diameter of " +:+
          format_f 3 (NearEarthObject.diameter o) +:+ " km and " +:+
          (if NearEarthObject.hazardous o then "is" else "is not") +:+
          " potentially hazardous.") ∧
  (∀ s m e,
     let n := scaled 3 m e in
     let frac := fixed_digits 3 (n mod 1000) in
     format_f 3 (S754_finite s m e) = sign_str s +:+ dec (n / 1000) +:+ "." +:+ frac ∧
     0 ≤ n ∧ String.length frac = 3%nat ∧
     digits_val (list_ascii_of_string frac) 0 = Some (n mod 1000) ∧
     (0 ≤ e → n = Z.pos m * 2 ^ e * 1000) ∧
     (e < 0 → Z.abs (2 * (Z.pos m * 1000 - n * 2 ^ (- e))) ≤ 2 ^ (- e))) ∧
  (∃ o,
     NearEarthObject.__init__ "2015 AB" NearEarthObject.default_name
       (PyStr EmptyString) NearEarthObject.default_hazardous = Ok o ∧
     NearEarthObject.__str__ o = "NEO 2015 AB, is not potentially hazardous.").
Proof.
  split; [| split].
  - intros o. unfold NearEarthObject.__str__.
    destruct (isnan (NearEarthObject.diameter o)); simpl;
      destruct (NearEarthObject.hazardous o); reflexivity.
  - intros s m e n frac. subst frac.
    split; [apply (format_f_finite 2) |].
    split; [apply scaled_nonneg |].
    split; [apply fixed_digits_length |].
    split; [| split].
    + rewrite fixed_digits_value. f_equal.
      change (10 ^ Z.of_nat 3) with 1000. rewrite Z.mod_mod by lia. lia.
    + intros He. apply (scaled_exact 3 m e He).
    + intros He. apply (scaled_nearest 3 m e He).
  - eexists. split; [apply neo_init_empty_diameter | reflexivity].
Qed.

(** C6. A float diameter is stored as it is, an integer diameter of
    fewer than 54 bits as the float of the same value, and the empty
    string as a value that is not equal to itself. *)
Theorem diameter_stored designation name hazardous :
  (∀ d : spec_float, ∃ o,
     NearEarthObject.__init__ designation name (PyFloat d) hazardous = Ok o ∧
     NearEarthObject.diameter o = d) ∧
  (∀ n : Z, 0 ≤ n < 2 ^ 53 → ∃ o,
     NearEarthObject.__init__ designation name (PyInt n) hazardous = Ok o ∧
     float_is_int (NearEarthObject.diameter o) n = true) ∧
  (∃ o,
     NearEarthObject.__init__ designation name (PyStr EmptyString) hazardous = Ok o ∧
     float_eqb (NearEarthObject.diameter o) (NearEarthObject.diameter o) = false).
Proof.
  split; [| split].
  - intros d. eexists. split; [apply neo_init_float | reflexivity].
  - intros n Hn.
    destruct (float_of_int_exact n) as (x & Hx & Hint); [unfold prec; lia |].
    eexists. split.
    + unfold NearEarthObject.__init__. simpl. rewrite Hx. reflexivity.
    + exact Hint.
  - eexists. split; [apply neo_init_empty_diameter | reflexivity].
Qed.

(** C7, as amended. An absent or empty name is stored as [None]; any
    other name is stored unchanged. *)
Theorem name_normalized designation name diameter hazardous o :
  NearEarthObject.__init__ designation name diameter hazardous = Ok o →
  (name = None ∨ name = Some EmptyString → NearEarthObject.name o = None) ∧
  (∀ s, name = Some s → s ≠ EmptyString → NearEarthObject.name o = Some s).
Proof.
  intros Hinit. apply neo_init_inv in Hinit as (d & _ & ->). simpl.
  rewrite stored_name. split.
  - intros [-> | ->]; reflexivity.
  - intros s -> Hs. apply String.eqb_neq in Hs. rewrite Hs. reflexivity.
Qed.

End NearEarthObjectFacts.

(** ** CloseApproach *)

Section CloseApproachFacts.
Context `{Helpers} `{Builtins}.

(** What a successful construction stores. *)
Lemma approach_init_inv distance velocity time key c :
  CloseApproach.__init__ distance velocity time key = Ok c →
  ∃ d v,
    py_float distance = Ok d ∧ py_float velocity = Ok v ∧
    c = {| CloseApproach._designation := key;
           CloseApproach.time := cd_to_datetime time;
           CloseApproach.distance := d;
           CloseApproach.velocity := v;
           CloseApproach.neo := None |}.
Proof.
  unfold CloseApproach.__init__.
  destruct (py_float distance) as [d | e |]; simpl; try discriminate.
  destruct (py_float velocity) as [v | e |]; simpl; try discriminate.
  intros [= <-]. exists d, v. auto.
Qed.

(** Float measurements never make the constructor raise. *)
Lemma approach_init_float d v time key :
  CloseApproach.__init__ (PyFloat d) (PyFloat v) time key =
  Ok {| CloseApproach._designation := key;
        CloseApproach.time := cd_to_datetime time;
        CloseApproach.distance := d;
        CloseApproach.velocity := v;
        CloseApproach.neo := None |}.
Proof. reflexivity. Qed.

(** Reading an attribute through a resolved reference. *)
Lemma neo_attr_linked {A : Type} (neos : gmap ref NearEarthObject.t) c r o attr
    (get : NearEarthObject.t → A) :
  CloseApproach.neo c = Some r → neos !! r = Some o →
  CloseApproach.neo_attr neos c attr get = Ok (get o).
Proof. intros Hc Hr. unfold CloseApproach.neo_attr. rewrite Hc, Hr. reflexivity. Qed.

(** Reading an attribute through a reference that is still [None]. *)
Lemma neo_attr_unlinked {A : Type} (neos : gmap ref NearEarthObject.t) c attr
    (get : NearEarthObject.t → A) :
  CloseApproach.neo c = None →
  CloseApproach.neo_attr neos c attr get = Raise (AttributeError attr).
Proof. intros Hc. unfold CloseApproach.neo_attr. rewrite Hc. reflexivity. Qed.

(** C1. On an approach linked to an object, [serialize("csv")] gives
    the flat mapping of the seven fields and [serialize("json")] the
    mapping of the three measurements and a nested [neo] mapping of
    the four object fields; the values are the same, and flattening
    the second gives the first. *)
Theorem serialize_csv_json (σ : store) (c : CloseApproach.t) (r : ref)
    (o : NearEarthObject.t) :
  CloseApproach.neo c = Some r → neos σ !! r = Some o →
  let measurements :=
    [("datetime_utc", PyStr (CloseApproach.time_str c));
     ("distance_au", PyFloat (CloseApproach.distance c));
     ("velocity_km_s", PyFloat (CloseApproach.velocity c))] in
  let object :=
    [("designation", PyStr (NearEarthObject.designation o));
     ("name", of_opt (NearEarthObject.name o));
     ("diameter_km", PyFloat (NearEarthObject.diameter o));
     ("potentially_hazardous", PyBool (NearEarthObject.hazardous o))] in
  CloseApproach.serialize (neos σ) c (PyStr "csv") = Ok (PyDict (measurements ++ object)) ∧
  CloseApproach.serialize (neos σ) c (PyStr "json") =
    Ok (PyDict (measurements ++ [("neo", PyDict object)])) ∧
  keys (PyDict (measurements ++ object)) =
    ["datetime_utc"; "distance_au"; "velocity_km_s"; "designation"; "name";
     "diameter_km"; "potentially_hazardous"] ∧
  keys (PyDict (measurements ++ [("neo", PyDict object)])) =
    ["datetime_utc"; "distance_au"; "velocity_km_s"; "neo"] ∧
  flatten (PyDict (measurements ++ [("neo", PyDict object)])) =
    PyDict (measurements ++ object).
Proof.
  intros Hc Hr. unfold CloseApproach.serialize. simpl.
  rewrite !(neo_attr_linked _ _ _ _ _ _ Hc Hr). simpl.
  repeat split; reflexivity.
Qed.

(** The guard of [serialize]: a tag equal to neither literal raises
    before the object is looked at. *)
Lemma serialize_rejects (neos : gmap ref NearEarthObject.t) (c : CloseApproach.t)
    (extension : PyVal) :
  py_eq_str extension "csv" = false → py_eq_str extension "json" = false →
  CloseApproach.serialize neos c extension = Raise (ValueError "Invalid file extension").
Proof.
  intros Hcsv Hjson. unfold CloseApproach.serialize. rewrite Hcsv, Hjson. reflexivity.
Qed.

(** C2. Any format tag other than "csv" and "json" makes [serialize]
    raise [ValueError] with the message "Invalid file extension";
    no mapping is returned. *)
Theorem serialize_invalid_extension (neos : gmap ref NearEarthObject.t)
    (c : CloseApproach.t) (extension : PyVal) :
  extension ≠ PyStr "csv" → extension ≠ PyStr "json" →
  CloseApproach.serialize neos c extension = Raise (ValueError "Invalid file extension") ∧
  ∀ data, CloseApproach.serialize neos c extension ≠ Ok data.
Proof.
  intros Hcsv Hjson.
  pose proof (serialize_rejects neos c extension
                (py_eq_str_false _ _ Hcsv) (py_eq_str_false _ _ Hjson)) as E.
  split; [exact E |]. intros data. rewrite E. discriminate.
Qed.

(** Linking keeps an approach in the store, with its reference set
    and nothing else changed. *)
Lemma link_event (σ σ' : store) (e n : ref) (c : CloseApproach.t) :
  events σ !! e = Some c → link σ e n = Some σ' →
  events σ' !! e = Some (CloseApproach.set_neo c (Some n)).
Proof.
  intros He. unfold link. rewrite He.
  destruct (neos σ !! n) as [o |]; [| discriminate].
  intros [= <-]. simpl. apply lookup_insert_eq.
Qed.

(** C8. Whatever key is passed, a new approach has no owning object,
    and its [designation] is the key it was given, before and after
    [neo] is assigned. *)
Theorem neo_starts_null_designation_kept distance velocity time key c :
  CloseApproach.__init__ distance velocity time key = Ok c →
  CloseApproach.neo c = None ∧
  CloseApproach.designation c = key ∧
  (∀ r, CloseApproach.designation (CloseApproach.set_neo c r) = key) ∧
  (∀ σ σ' e n, events σ !! e = Some c → link σ e n = Some σ' →
     ∃ c', events σ' !! e = Some c' ∧ CloseApproach.neo c' = Some n ∧
           CloseApproach.designation c' = key).
Proof.
  intros Hinit. apply approach_init_inv in Hinit as (d & v & _ & _ & ->).
  repeat split.
  intros σ σ' e n He Hlink. eexists. split; [eapply link_event; eassumption |].
  split; reflexivity.
Qed.

(** C9. The formatted time is the formatter's text for a stored time
    and "an unknown date and time" when there is none; a time string
    the parser rejects is stored as no time, so construction succeeds
    and the formatted time is that sentinel. *)
Theorem time_str_or_unknown :
  (∀ c : CloseApproach.t,
     CloseApproach.time_str c =
     match CloseApproach.time c with
     | Some d => datetime_to_str d
     | None => "an unknown date and time"
     end) ∧
  (∀ distance velocity time key c,
     CloseApproach.__init__ distance velocity time key = Ok c →
     CloseApproach.time c = cd_to_datetime time) ∧
  (∀ d v time key, cd_to_datetime time = None →
     ∃ c, CloseApproach.__init__ (PyFloat d) (PyFloat v) time key = Ok c ∧
          CloseApproach.time_str c = "an unknown date and time").
Proof.
  split; [| split].
  - intros c. reflexivity.
  - intros distance velocity time key c Hinit.
    apply approach_init_inv in Hinit as (d & v & _ & _ & ->). reflexivity.
  - intros d v time key Hnone. eexists. split; [apply approach_init_float |].
    unfold CloseApproach.time_str. simpl. rewrite Hnone. reflexivity.
Qed.

(** C10. On an approach that is not linked, [__repr__] returns its
    text with "neo=None", while [__str__] and [serialize] raise. *)
Theorem repr_of_unlinked (neos : gmap ref NearEarthObject.t) (c : CloseApproach.t) :
  CloseApproach.neo c = None →
  CloseApproach.__repr__ neos c =
    Ok ("CloseApproach(time=" +:+ str_repr (CloseApproach.time_str c) +:+
        ", distance=" +:+ format_f 2 (CloseApproach.distance c) +:+
        ", velocity=" +:+ format_f 2 (CloseApproach.velocity c) +:+
        ", neo=None)") ∧
  CloseApproach.__str__ neos c = Raise (AttributeError "fullname") ∧
  CloseApproach.serialize neos c (PyStr "csv") = Raise (AttributeError "designation") ∧
  CloseApproach.serialize neos c (PyStr "json") = Raise (AttributeError "designation") ∧
  ∀ extension, ∃ e, CloseApproach.serialize neos c extension = Raise e.
Proof.
  intros Hc.
  assert (Hcsv : CloseApproach.serialize neos c (PyStr "csv") =
                 Raise (AttributeError "designation")).
  { unfold CloseApproach.serialize. simpl.
    rewrite (neo_attr_unlinked neos c "designation" NearEarthObject.designation Hc).
    reflexivity. }
  assert (Hjson : CloseApproach.serialize neos c (PyStr "json") =
                  Raise (AttributeError "designation")).
  { unfold CloseApproach.serialize. simpl.
    rewrite (neo_attr_unlinked neos c "designation" NearEarthObject.designation Hc).
    reflexivity. }
  split; [| split; [| split; [exact Hcsv | split; [exact Hjson |]]]].
  - unfold CloseApproach.__repr__, CloseApproach.neo_repr. rewrite Hc. reflexivity.
  - unfold CloseApproach.__str__.
    rewrite (neo_attr_unlinked neos c "fullname" NearEarthObject.fullname Hc).
    reflexivity.
  - intros extension.
    destruct (py_eq_str extension "csv") eqn:E1.
    { apply py_eq_str_spec in E1 as ->. eauto. }
    destruct (py_eq_str extension "json") eqn:E2.
    { apply py_eq_str_spec in E2 as ->. eauto. }
    eexists. apply serialize_rejects; assumption.
Qed.

End CloseApproachFacts.

(** ** The scenario, run *)

(** Building Eros and its approach from their rows and linking them
    gives the store written out above. *)
Example eros_scenario_store :
  eros_scenario = Some (1%positive, 1%positive, eros_store).
Proof. vm_compute. reflexivity. Qed.

Example eros_fullname : NearEarthObject.fullname eros = "433 (Eros)".
Proof. reflexivity. Qed.

Example eros_description :
  NearEarthObject.__str__ eros =
  "NEO 433 (Eros) has a diameter of 16.840 km and is not potentially hazardous.".
Proof. vm_compute. reflexivity. Qed.

Example eros_approach_description :
  CloseApproach.__str__ (neos eros_store) eros_approach =
  Ok ("At 1900-Dec-27 01:30, '433 (Eros)' approached Earth at a distance of " +:+
      "0.15 au and a velocity of 5.10 km/s.").
Proof. vm_compute. reflexivity. Qed.

Example eros_approach_repr :
  CloseApproach.__repr__ (neos eros_store) eros_approach =
  Ok ("CloseApproach(time='1900-Dec-27 01:30', distance=0.15, velocity=5.10, " +:+
      "neo=NearEarthObject(designation='433',  name='Eros', diameter=16.840, " +:+
      "hazardous=False))").
Proof. vm_compute. reflexivity. Qed.

Example parse_then_format :
  datetime_to_str <$> cd_to_datetime "1900-Dec-27 01:30" = Some "1900-Dec-27 01:30".
Proof. vm_compute. reflexivity. Qed.

Example float_of_text :
  py_float (PyStr " 1_6.84e0 ") = Ok (S754_finite false 4740038607807447 (-48)) ∧
  py_float (PyStr "16,84") = Raise (ValueError "could not convert string to float: '16,84'") ∧
  py_float (PyInt (2 ^ 53 + 1)) = Ok (S754_finite false 4503599627370496 1) ∧
  py_float PyNone = Raise TypeError.
Proof. vm_compute. repeat split; reflexivity. Qed.

(** ** Instances of the theorems *)

Lemma serialize_csv_json_eros :
  CloseApproach.neo eros_approach = Some 1%positive ∧
  neos eros_store !! 1%positive = Some eros ∧
  CloseApproach.serialize (neos eros_store) eros_approach (PyStr "csv") =
    Ok (PyDict [("datetime_utc", PyStr "1900-Dec-27 01:30");
                ("distance_au", PyFloat (S754_finite false 5332261958806667 (-55)));
                ("velocity_km_s", PyFloat (S754_finite false 5742089524897382 (-50)));
                ("designation", PyStr "433");
                ("name", PyStr "Eros");
                ("diameter_km", PyFloat (S754_finite false 4740038607807447 (-48)));
                ("potentially_hazardous", PyBool false)]).
Proof.
  pose proof (serialize_csv_json eros_store eros_approach 1%positive eros
                ltac:(reflexivity) ltac:(reflexivity)) as (Hcsv & _).
  split; [reflexivity | split; [reflexivity | exact Hcsv]].
Defined.

Lemma serialize_invalid_extension_xml :
  PyStr "xml" ≠ PyStr "csv" ∧ PyStr "xml" ≠ PyStr "json" ∧
  CloseApproach.serialize (neos eros_store) eros_approach (PyStr "xml") =
    Raise (ValueError "Invalid file extension").
Proof.
  split; [discriminate | split; [discriminate |]].
  apply (serialize_invalid_extension (neos eros_store) eros_approach (PyStr "xml"));
    discriminate.
Defined.

Lemma hazardous_iff_Y_eros :
  NearEarthObject.__init__ "433" (Some "Eros") (PyStr "16.84") (PyStr "N") =
    Ok eros_unlinked ∧
  (NearEarthObject.hazardous eros_unlinked = true ↔ PyStr "N" = PyStr "Y").
Proof.
  split; [vm_compute; reflexivity |].
  apply (hazardous_iff_Y "433" (Some "Eros") (PyStr "16.84") (PyStr "N")).
  vm_compute; reflexivity.
Defined.

Lemma fullname_of_constructed_eros :
  NearEarthObject.__init__ "433" (Some "Eros") (PyStr "16.84") (PyStr "N") =
    Ok eros_unlinked ∧
  NearEarthObject.fullname eros_unlinked = "433 (Eros)".
Proof.
  split; [vm_compute; reflexivity |].
  apply (fullname_of_constructed "433" (Some "Eros") (PyStr "16.84") (PyStr "N")).
  vm_compute; reflexivity.
Defined.

(** C7, as stated, fails: the empty name is stored as [None], not as
    the text "no name". *)
Lemma empty_name_is_not_no_name :
  ∃ o, NearEarthObject.__init__ "2015 AB" (Some EmptyString)
         NearEarthObject.default_diameter NearEarthObject.default_hazardous = Ok o ∧
       NearEarthObject.name o = None ∧
       NearEarthObject.name o ≠ Some "no name".
Proof.
  eexists. split; [reflexivity |]. split; [reflexivity | discriminate].
Qed.

Lemma name_normalized_empty :
  ∃ o, NearEarthObject.__init__ "2015 AB" (Some EmptyString)
         NearEarthObject.default_diameter NearEarthObject.default_hazardous = Ok o ∧
       NearEarthObject.name o = None.
Proof.
  eexists. split; [reflexivity |].
  eapply (name_normalized "2015 AB" (Some EmptyString) NearEarthObject.default_diameter
            NearEarthObject.default_hazardous); [reflexivity | right; reflexivity].
Defined.

Lemma neo_starts_null_eros :
  CloseApproach.__init__ (PyStr "0.148") (PyStr "5.1") "1900-Dec-27 01:30" (Some "433") =
    Ok eros_approach_unlinked ∧
  CloseApproach.neo eros_approach_unlinked = None ∧
  CloseApproach.designation eros_approach_unlinked = Some "433" ∧
  CloseApproach.designation (CloseApproach.set_neo eros_approach_unlinked (Some 1%positive)) =
    Some "433".
Proof.
  pose proof (@neo_starts_null_designation_kept spec_helpers ascii_builtins
                (PyStr "0.148") (PyStr "5.1") "1900-Dec-27 01:30" (Some "433")
                eros_approach_unlinked ltac:(vm_compute; reflexivity))
    as (Hneo & Hkey & Hset & _).
  split; [vm_compute; reflexivity |].
  split; [exact Hneo | split; [exact Hkey | apply Hset]].
Defined.

Lemma time_str_or_unknown_undated :
  cd_to_datetime "27 December 1900" = None ∧
  ∃ c, CloseApproach.__init__ (PyFloat (S754_finite false 5332261958806667 (-55)))
         (PyFloat (S754_finite false 5742089524897382 (-50)))
         "27 December 1900" (Some "433") = Ok c ∧
       CloseApproach.time_str c = "an unknown date and time".
Proof.
  split; [reflexivity |].
  apply time_str_or_unknown. reflexivity.
Defined.

Lemma repr_of_unlinked_undated :
  CloseApproach.neo undated_approach = None ∧
  CloseApproach.__repr__ (neos eros_store) undated_approach =
    Ok ("CloseApproach(time='an unknown date and time', distance=0.15, " +:+
        "velocity=5.10, neo=None)") ∧
  CloseApproach.__str__ (neos eros_store) undated_approach =
    Raise (AttributeError "fullname").
Proof.
  pose proof (repr_of_unlinked (neos eros_store) undated_approach ltac:(reflexivity))
    as (Hrepr & Hstr & _).
  split; [reflexivity | split; [exact Hrepr | exact Hstr]].
Defined.

Lemma description_of_neo_eros :
  NearEarthObject.__str__ eros =
    "NEO 433 (Eros) has a diameter of 16.840 km and is not potentially hazardous." ∧
  scaled 3 4740038607807447 (-48) = 16840 ∧
  Z.abs (2 * (4740038607807447 * 1000 - 16840 * 2 ^ 48)) ≤ 2 ^ 48.
Proof.
  destruct description_of_neo as (Hstr & Hfmt & _).
  split; [rewrite Hstr; vm_compute; reflexivity |].
  split; [vm_compute; reflexivity |].
  apply (Hfmt false 4740038607807447%positive (-48)). lia.
Defined.

Lemma diameter_stored_seventeen :
  0 ≤ 17 < 2 ^ 53 ∧
  ∃ o, NearEarthObject.__init__ "433" (Some "Eros") (PyInt 17) (PyStr "N") = Ok o ∧
       float_is_int (NearEarthObject.diameter o) 17 = true.
Proof.
  split; [lia |].
  apply (proj1 (proj2 (diameter_stored "433" (Some "Eros") (PyStr "N")))). lia.
Defined.

(** * Further properties of the two classes *)

(** ** Constructors: what makes them raise *)

Section ConstructorFacts.
Context `{Helpers} `{Builtins}.

(** X1. [NearEarthObject.__init__] raises only through [float]: with
    [None] or a mapping for the diameter it raises [TypeError], with a
    non-empty text that is not a number it raises [ValueError] naming
    the text, and whenever it raises, the diameter was not the empty
    string and [float] raised that same exception.  Name, designation
    and hazardous indicator never make it raise. *)
Theorem neo_init_raises designation name diameter hazardous :
  (diameter = PyNone ∨ (∃ items, diameter = PyDict items) →
   NearEarthObject.__init__ designation name diameter hazardous = Raise TypeError) ∧
  (∀ s, diameter = PyStr s → s ≠ EmptyString → float_of_str s = None →
     NearEarthObject.__init__ designation name diameter hazardous =
     Raise (ValueError ("could not convert string to float: " +:+ str_repr s))) ∧
  (∀ e, NearEarthObject.__init__ designation name diameter hazardous = Raise e →
     diameter ≠ PyStr EmptyString ∧ py_float diameter = Raise e) ∧
  NearEarthObject.__init__ designation name diameter hazardous ≠ Stuck ∧
  (∀ x, py_float diameter = Ok x →
     ∃ o, NearEarthObject.__init__ designation name diameter hazardous = Ok o).
Proof.
  unfold NearEarthObject.__init__. repeat split.
  - intros [-> | [items ->]]; reflexivity.
  - intros s -> Hs Hnone. unfold py_ne_str. simpl.
    apply String.eqb_neq in Hs. rewrite Hs. simpl. rewrite Hnone. reflexivity.
  - intros ->. simpl in *. discriminate.
  - destruct (py_ne_str diameter EmptyString); [| discriminate].
    destruct (py_float diameter) as [x | e' |]; simpl in *; congruence.
  - destruct (py_ne_str diameter EmptyString); [| discriminate].
    destruct diameter as [| b | n | x | s | items]; simpl; try discriminate.
    + unfold float_of_int. destruct (binary_normalize _ _ _ _ _); discriminate.
    + unfold float_of_int. destruct (binary_normalize _ _ _ _ _); discriminate.
    + destruct (float_of_str s); discriminate.
  - intros x Hx. destruct (py_ne_str diameter EmptyString); simpl.
    + rewrite Hx. simpl. eauto.
    + eauto.
Qed.

(** X2. [CloseApproach.__init__] converts the distance before the
    velocity and has no guard for the empty string: it raises what
    [float(distance)] raises, else what [float(velocity)] raises, and
    succeeds exactly when both convert.  A distance given as text that
    [float] does not read, the empty string included, raises
    [ValueError]. *)
Theorem approach_init_raises distance velocity time key :
  (∀ e, py_float distance = Raise e →
     CloseApproach.__init__ distance velocity time key = Raise e) ∧
  (∀ d e, py_float distance = Ok d → py_float velocity = Raise e →
     CloseApproach.__init__ distance velocity time key = Raise e) ∧
  ((∃ c, CloseApproach.__init__ distance velocity time key = Ok c) ↔
   (∃ d v, py_float distance = Ok d ∧ py_float velocity = Ok v)) ∧
  (∀ s, distance = PyStr s → float_of_str s = None →
     CloseApproach.__init__ distance velocity time key =
     Raise (ValueError ("could not convert string to float: " +:+ str_repr s))).
Proof.
  unfold CloseApproach.__init__. repeat split.
  - intros e ->. reflexivity.
  - intros d e -> ->. reflexivity.
  - intros [c Hc].
    destruct (py_float distance) as [d | e |]; simpl in Hc; try discriminate.
    destruct (py_float velocity) as [v | e |]; simpl in Hc; try discriminate.
    eauto.
  - intros (d & v & -> & ->). simpl. eauto.
  - intros s -> Hnone. simpl. rewrite Hnone. reflexivity.
Qed.

(** X3. A new approach holds its measurements as floats: float
    arguments are stored as they are, and integer arguments of fewer
    than 54 bits as the floats of the same value. *)
Theorem approach_measurements_stored time key :
  (∀ d v : spec_float, ∃ c,
     CloseApproach.__init__ (PyFloat d) (PyFloat v) time key = Ok c ∧
     CloseApproach.distance c = d ∧ CloseApproach.velocity c = v) ∧
  (∀ n k : Z, - 2 ^ 53 < n < 2 ^ 53 → - 2 ^ 53 < k < 2 ^ 53 → ∃ c,
     CloseApproach.__init__ (PyInt n) (PyInt k) time key = Ok c ∧
     float_is_int (CloseApproach.distance c) n = true ∧
     float_is_int (CloseApproach.velocity c) k = true).
Proof.
  split.
  - intros d v. eexists. split; [apply approach_init_float | split; reflexivity].
  - intros n k Hn Hk.
    destruct (float_of_int_exact n Hn) as (x & Hx & Hxn).
    destruct (float_of_int_exact k Hk) as (y & Hy & Hyk).
    eexists. split.
    + unfold CloseApproach.__init__. simpl. rewrite Hx. simpl. rewrite Hy. reflexivity.
    + split; assumption.
Qed.

End ConstructorFacts.

(** ** NearEarthObject: names and descriptions *)

Lemma append_nonempty_neq (d x : string) : x ≠ EmptyString → d +:+ x ≠ d.
Proof.
  intros Hx Heq. apply (f_equal String.length) in Heq.
  rewrite length_append in Heq. destruct x; [contradiction | simpl in Heq; lia].
Qed.

(** X4. The full name is the bare designation exactly when the object
    has no name to show: a name is always visible in the full name. *)
Theorem fullname_is_designation_iff (o : NearEarthObject.t) :
  NearEarthObject.fullname o = NearEarthObject.designation o ↔
  (NearEarthObject.name o = None ∨ NearEarthObject.name o = Some EmptyString).
Proof.
  unfold NearEarthObject.fullname.
  destruct (NearEarthObject.name o) as [s |]; simpl.
  - destruct (String.eqb s EmptyString) eqn:E; simpl.
    + apply String.eqb_eq in E. subst s. split; auto.
    + apply String.eqb_neq in E. split.
      * intros Heq. exfalso. revert Heq. apply append_nonempty_neq. discriminate.
      * intros [Hn | [= Hs]]; [discriminate | contradiction].
  - split; auto.
Qed.

(** X5. Only NaN counts as an unknown diameter: an infinite diameter
    passes the [isnan] test, and the description gives it as "inf" (or
    "-inf") kilometres. *)
Theorem description_of_infinite_diameter (o : NearEarthObject.t) (s : bool) :
  NearEarthObject.diameter o = S754_infinity s →
  NearEarthObject.__str__ o =
  "NEO " +:+ NearEarthObject.fullname o +:+ " has a diameter of " +:+
  (if s then "-inf" else "inf") +:+ " km and " +:+
  (if NearEarthObject.hazardous o then "is" else "is not") +:+
  " potentially hazardous.".
Proof.
  intros Hd. unfold NearEarthObject.__str__. rewrite Hd. simpl.
  destruct s, (NearEarthObject.hazardous o); reflexivity.
Qed.

Section ReprFacts.
Context `{Builtins}.

(** X6. The debug text of a constructed object shows what the
    constructor stored, not what it was given: an empty name reads
    [None], an empty diameter reads [nan], and the hazardous indicator
    reads [True] only for "Y". *)
Theorem repr_of_constructed designation name diameter hazardous o :
  NearEarthObject.__init__ designation name diameter hazardous = Ok o →
  NearEarthObject.__repr__ o =
    "NearEarthObject(designation=" +:+ str_repr designation +:+ ",  name=" +:+
    match name with
    | Some s => if String.eqb s EmptyString then "None" else str_repr s
    | None => "None"
    end +:+
    ", diameter=" +:+
    (if py_eq_str diameter EmptyString then "nan"
     else format_f 3 (NearEarthObject.diameter o)) +:+
    ", hazardous=" +:+ (if py_eq_str hazardous "Y" then "True" else "False") +:+ ")".
Proof.
  intros Hinit. apply neo_init_inv in Hinit as (d & Hd & ->).
  unfold NearEarthObject.__repr__. simpl. rewrite stored_name.
  unfold py_ne_str in Hd.
  assert (Hname : opt_repr
            match name with
            | Some s => if String.eqb s EmptyString then None else Some s
            | None => None
            end =
          match name with
          | Some s => if String.eqb s EmptyString then "None" else str_repr s
          | None => "None"
          end).
  { destruct name as [s |]; [destruct (String.eqb s EmptyString) |]; reflexivity. }
  rewrite Hname.
  destruct (py_eq_str diameter EmptyString); simpl in Hd.
  - injection Hd as <-. destruct (py_eq_str hazardous "Y"); reflexivity.
  - destruct (py_eq_str hazardous "Y"); reflexivity.
Qed.

End ReprFacts.

(** ** CloseApproach: a linked approach *)

Section LinkedFacts.
Context `{Helpers} `{Builtins}.

(** X7. On a linked approach [__str__] returns its sentence: the
    formatted time, the full name of the object in single quotes, and
    distance and velocity to two decimals.  For a finite measurement
    the two decimals are the last two digits of the integer nearest to
    a hundred times its value. *)
Theorem str_of_linked (neos : gmap ref NearEarthObject.t) (c : CloseApproach.t)
    (r : ref) (o : NearEarthObject.t) :
  CloseApproach.neo c = Some r → neos !! r = Some o →
  CloseApproach.__str__ neos c =
    Ok ("At " +:+ CloseApproach.time_str c +:+ ", '" +:+ NearEarthObject.fullname o +:+
        "' approached Earth at a distance of " +:+ format_f 2 (CloseApproach.distance c) +:+
        " au and a velocity of " +:+ format_f 2 (CloseApproach.velocity c) +:+ " km/s.") ∧
  (∀ s m e,
     let n := scaled 2 m e in
     format_f 2 (S754_finite s m e) =
       sign_str s +:+ dec (n / 100) +:+ "." +:+ fixed_digits 2 (n mod 100) ∧
     0 ≤ n ∧
     digits_val (list_ascii_of_string (fixed_digits 2 (n mod 100))) 0 = Some (n mod 100) ∧
     (0 ≤ e → n = Z.pos m * 2 ^ e * 100) ∧
     (e < 0 → Z.abs (2 * (Z.pos m * 100 - n * 2 ^ (- e))) ≤ 2 ^ (- e))).
Proof.
  intros Hc Hr. split.
  - unfold CloseApproach.__str__.
    rewrite (neo_attr_linked neos c r o "fullname" NearEarthObject.fullname Hc Hr).
    reflexivity.
  - intros s m e n.
    split; [apply (format_f_finite 1) |].
    split; [apply scaled_nonneg |].
    split; [| split].
    + rewrite fixed_digits_value. f_equal.
      change (10 ^ Z.of_nat 2) with 100. rewrite Z.mod_mod by lia. lia.
    + intros He. apply (scaled_exact 2 m e He).
    + intros He. apply (scaled_nearest 2 m e He).
Qed.

(** X8. On a linked approach [__repr__] returns its text with the
    debug text of the object it points to nested under [neo]. *)
Theorem repr_of_linked (neos : gmap ref NearEarthObject.t) (c : CloseApproach.t)
    (r : ref) (o : NearEarthObject.t) :
  CloseApproach.neo c = Some r → neos !! r = Some o →
  CloseApproach.__repr__ neos c =
    Ok ("CloseApproach(time=" +:+ str_repr (CloseApproach.time_str c) +:+
        ", distance=" +:+ format_f 2 (CloseApproach.distance c) +:+
        ", velocity=" +:+ format_f 2 (CloseApproach.velocity c) +:+
        ", neo=" +:+ NearEarthObject.__repr__ o +:+ ")").
Proof.
  intros Hc Hr. unfold CloseApproach.__repr__, CloseApproach.neo_repr.
  rewrite Hc, Hr. reflexivity.
Qed.

(** X9. The key an approach was constructed with is never shown: two
    approaches that differ only in that key have the same sentence, the
    same debug text and the same serialized mapping. *)
Theorem outputs_ignore_key (neos : gmap ref NearEarthObject.t)
    (c : CloseApproach.t) (key : option string) :
  let c' := {| CloseApproach._designation := key;
               CloseApproach.time := CloseApproach.time c;
               CloseApproach.distance := CloseApproach.distance c;
               CloseApproach.velocity := CloseApproach.velocity c;
               CloseApproach.neo := CloseApproach.neo c |} in
  CloseApproach.__str__ neos c' = CloseApproach.__str__ neos c ∧
  CloseApproach.__repr__ neos c' = CloseApproach.__repr__ neos c ∧
  (∀ extension,
     CloseApproach.serialize neos c' extension = CloseApproach.serialize neos c extension).
Proof. destruct c. repeat split. Qed.

(** X10. Construct, assign, serialize: when an object and an approach
    have been constructed and the approach's [neo] is set to the object,
    [serialize("csv")] carries the values the constructors stored: the
    designation as given, the name with the empty string turned to
    [None], the hazardous flag as the test against "Y", the sentinel
    text when the parser read no time, and the key of the approach
    nowhere. *)
Theorem serialize_after_construction (neos : gmap ref NearEarthObject.t) (r : ref)
    designation name diameter hazardous o distance velocity time key c :
  NearEarthObject.__init__ designation name diameter hazardous = Ok o →
  CloseApproach.__init__ distance velocity time key = Ok c →
  neos !! r = Some o →
  CloseApproach.serialize neos (CloseApproach.set_neo c (Some r)) (PyStr "csv") =
  Ok (PyDict
        [("datetime_utc",
          PyStr match cd_to_datetime time with
                | Some d => datetime_to_str d
                | None => "an unknown date and time"
                end);
         ("distance_au", PyFloat (CloseApproach.distance c));
         ("velocity_km_s", PyFloat (CloseApproach.velocity c));
         ("designation", PyStr designation);
         ("name", match name with
                  | Some s => if String.eqb s EmptyString then PyNone else PyStr s
                  | None => PyNone
                  end);
         ("diameter_km", PyFloat (NearEarthObject.diameter o));
         ("potentially_hazardous", PyBool (py_eq_str hazardous "Y"))]).
Proof.
  intros Ho Hc Hr.
  apply neo_init_inv in Ho as (d & _ & ->).
  apply approach_init_inv in Hc as (x & v & _ & _ & ->).
  unfold CloseApproach.serialize, CloseApproach.neo_attr, CloseApproach.time_str.
  simpl. rewrite Hr. simpl. rewrite stored_name.
  destruct name as [s |]; [destruct (String.eqb s EmptyString) |];
    destruct (py_eq_str hazardous "Y"); reflexivity.
Qed.

End LinkedFacts.

(** ** Measurements too small to show *)



Section SmallDistance.
Context `{Helpers}.


End SmallDistance.

(** ** The list of approaches *)

Section ApproachesFacts.
Context `{Helpers} `{Builtins}.

(** X13. The list of approaches starts empty and is read by no method:
    whatever it is later set to, the full name, description and debug
    text of the object stay the same, and so do the sentence, debug
    text and serialized mapping of every approach, whether it points to
    that object or to another. *)
Theorem outputs_ignore_approaches designation name diameter hazardous o :
  NearEarthObject.__init__ designation name diameter hazardous = Ok o →
  NearEarthObject.approaches o = [] ∧
  ∀ es : list ref,
    NearEarthObject.fullname (set_approaches o es) = NearEarthObject.fullname o ∧
    NearEarthObject.__str__ (set_approaches o es) = NearEarthObject.__str__ o ∧
    NearEarthObject.__repr__ (set_approaches o es) = NearEarthObject.__repr__ o ∧
    ∀ (neos : gmap ref NearEarthObject.t) (r : ref) (c : CloseApproach.t),
      neos !! r = Some o →
      CloseApproach.__str__ (<[r := set_approaches o es]> neos) c =
        CloseApproach.__str__ neos c ∧
      CloseApproach.__repr__ (<[r := set_approaches o es]> neos) c =
        CloseApproach.__repr__ neos c ∧
      ∀ extension,
        CloseApproach.serialize (<[r := set_approaches o es]> neos) c extension =
        CloseApproach.serialize neos c extension.
Proof.
  intros Hinit. apply neo_init_inv in Hinit as (d & _ & ->).
  split; [reflexivity |]. intros es.
  split; [reflexivity |]. split; [reflexivity |]. split; [reflexivity |].
  intros neos r c Hr.
  set (o := {| NearEarthObject.name := _ |}) in *.
  assert (Hattr : ∀ (A : Type) attr (get : NearEarthObject.t → A),
            get (set_approaches o es) = get o →
            CloseApproach.neo_attr (<[r := set_approaches o es]> neos) c attr get =
            CloseApproach.neo_attr neos c attr get).
  { intros A attr get Hget. unfold CloseApproach.neo_attr.
    destruct (CloseApproach.neo c) as [r' |]; [| reflexivity].
    destruct (decide (r = r')) as [<- | Hne].
    - rewrite lookup_insert_eq, Hr, Hget. reflexivity.
    - rewrite lookup_insert_ne by exact Hne. reflexivity. }
  split; [| split].
  - unfold CloseApproach.__str__. rewrite Hattr by reflexivity. reflexivity.
  - unfold CloseApproach.__repr__, CloseApproach.neo_repr.
    destruct (CloseApproach.neo c) as [r' |]; [| reflexivity].
    destruct (decide (r = r')) as [<- | Hne].
    + rewrite lookup_insert_eq, Hr. reflexivity.
    + rewrite lookup_insert_ne by exact Hne. reflexivity.
  - intros extension. unfold CloseApproach.serialize.
    rewrite !Hattr by reflexivity. reflexivity.
Qed.

End ApproachesFacts.

(** ** Instances of the further properties *)

Lemma neo_init_raises_examples :
  NearEarthObject.__init__ "433" (Some "Eros") PyNone (PyStr "N") = Raise TypeError ∧
  NearEarthObject.__init__ "433" (Some "Eros") (PyStr "16,84") (PyStr "N") =
    Raise (ValueError "could not convert string to float: '16,84'").
Proof.
  split.
  - apply (neo_init_raises "433" (Some "Eros") PyNone (PyStr "N")). left. reflexivity.
  - exact (proj1 (proj2 (neo_init_raises "433" (Some "Eros") (PyStr "16,84") (PyStr "N")))
             "16,84" ltac:(reflexivity) ltac:(discriminate)
             ltac:(vm_compute; reflexivity)).
Defined.

Lemma approach_init_raises_examples :
  float_of_str EmptyString = None ∧
  CloseApproach.__init__ (PyStr EmptyString) PyNone "1900-Dec-27 01:30" (Some "433") =
    Raise (ValueError "could not convert string to float: ''").
Proof.
  split; [vm_compute; reflexivity |].
  exact (proj2 (proj2 (proj2 (approach_init_raises (PyStr EmptyString) PyNone
                                "1900-Dec-27 01:30" (Some "433")))) EmptyString
           ltac:(reflexivity) ltac:(vm_compute; reflexivity)).
Defined.

Lemma approach_measurements_stored_examples :
  ∃ c, CloseApproach.__init__ (PyInt 3) (PyInt 7) "1900-Dec-27 01:30" (Some "433") = Ok c ∧
       float_is_int (CloseApproach.distance c) 3 = true ∧
       float_is_int (CloseApproach.velocity c) 7 = true.
Proof.
  apply (proj2 (approach_measurements_stored "1900-Dec-27 01:30" (Some "433"))); lia.
Defined.

Lemma description_of_infinite_diameter_example :
  ∃ o, NearEarthObject.__init__ "433" None (PyStr "1e999") (PyStr "N") = Ok o ∧
       NearEarthObject.diameter o = S754_infinity false ∧
       NearEarthObject.__str__ o =
         "NEO 433 has a diameter of inf km and is not potentially hazardous.".
Proof.
  exists {| NearEarthObject.name := None;
            NearEarthObject.designation := "433";
            NearEarthObject.diameter := S754_infinity false;
            NearEarthObject.hazardous := false;
            NearEarthObject.approaches := [] |}.
  split; [vm_compute; reflexivity |]. split; [reflexivity |].
  refine (description_of_infinite_diameter _ false _). reflexivity.
Defined.

Lemma repr_of_constructed_example :
  ∃ o, NearEarthObject.__init__ "433" (Some EmptyString) (PyStr EmptyString) (PyStr "Y") =
         Ok o ∧
       NearEarthObject.__repr__ o =
         "NearEarthObject(designation='433',  name=None, diameter=nan, hazardous=True)".
Proof.
  exists {| NearEarthObject.name := None;
            NearEarthObject.designation := "433";
            NearEarthObject.diameter := nan;
            NearEarthObject.hazardous := true;
            NearEarthObject.approaches := [] |}.
  split; [reflexivity |].
  refine (repr_of_constructed "433" (Some EmptyString) (PyStr EmptyString) (PyStr "Y") _ _).
  reflexivity.
Defined.

Lemma str_of_linked_eros :
  CloseApproach.neo eros_approach = Some 1%positive ∧
  neos eros_store !! 1%positive = Some eros ∧
  CloseApproach.__str__ (neos eros_store) eros_approach =
    Ok ("At 1900-Dec-27 01:30, '433 (Eros)' approached Earth at a distance of " +:+
        "0.15 au and a velocity of 5.10 km/s.").
Proof.
  pose proof (str_of_linked (neos eros_store) eros_approach 1%positive eros
                ltac:(reflexivity) ltac:(reflexivity)) as (Hstr & _).
  split; [reflexivity | split; [reflexivity | exact Hstr]].
Defined.

Lemma repr_of_linked_eros :
  CloseApproach.neo eros_approach = Some 1%positive ∧
  neos eros_store !! 1%positive = Some eros ∧
  CloseApproach.__repr__ (neos eros_store) eros_approach =
    Ok ("CloseApproach(time='1900-Dec-27 01:30', distance=0.15, velocity=5.10, " +:+
        "neo=NearEarthObject(designation='433',  name='Eros', diameter=16.840, " +:+
        "hazardous=False))").
Proof.
  split; [reflexivity | split; [reflexivity |]].
  exact (repr_of_linked (neos eros_store) eros_approach 1%positive eros
           ltac:(reflexivity) ltac:(reflexivity)).
Defined.

Lemma serialize_after_construction_eros :
  NearEarthObject.__init__ "433" (Some "Eros") (PyStr "16.84") (PyStr "N") =
    Ok eros_unlinked ∧
  CloseApproach.__init__ (PyStr "0.148") (PyStr "5.1") "1900-Dec-27 01:30" (Some "433") =
    Ok eros_approach_unlinked ∧
  CloseApproach.serialize {[ 1%positive := eros_unlinked ]}
    (CloseApproach.set_neo eros_approach_unlinked (Some 1%positive)) (PyStr "csv") =
    Ok (PyDict [("datetime_utc", PyStr "1900-Dec-27 01:30");
                ("distance_au", PyFloat (S754_finite false 5332261958806667 (-55)));
                ("velocity_km_s", PyFloat (S754_finite false 5742089524897382 (-50)));
                ("designation", PyStr "433");
                ("name", PyStr "Eros");
                ("diameter_km", PyFloat (S754_finite false 4740038607807447 (-48)));
                ("potentially_hazardous", PyBool false)]).
Proof.
  split; [vm_compute; reflexivity | split; [vm_compute; reflexivity |]].
  exact (@serialize_after_construction spec_helpers ascii_builtins
           {[ 1%positive := eros_unlinked ]} 1%positive
           "433" (Some "Eros") (PyStr "16.84") (PyStr "N") eros_unlinked
           (PyStr "0.148") (PyStr "5.1") "1900-Dec-27 01:30" (Some "433")
           eros_approach_unlinked
           ltac:(vm_compute; reflexivity) ltac:(vm_compute; reflexivity)
           ltac:(reflexivity)).
Defined.



Lemma outputs_ignore_approaches_eros :
  NearEarthObject.__init__ "433" (Some "Eros") (PyStr "16.84") (PyStr "N") =
    Ok eros_unlinked ∧
  NearEarthObject.approaches eros_unlinked = [] ∧
  NearEarthObject.__str__ (set_approaches eros_unlinked [1%positive]) =
    NearEarthObject.__str__ eros_unlinked.
Proof.
  pose proof (@outputs_ignore_approaches spec_helpers ascii_builtins
                "433" (Some "Eros") (PyStr "16.84") (PyStr "N") eros_unlinked
                ltac:(vm_compute; reflexivity)) as (Hempty & Hrest).
  split; [vm_compute; reflexivity |]. split; [exact Hempty |].
  apply (Hrest [1%positive]).
Defined.
